(** * MemoryLayerSaver: the dirty-tracking lifecycle coordinator

    A shallow embedding of [MemoryLayerSaver/memory_layer_saver.py] and
    [MemoryLayerSaver/layer_connector.py].  The plugin object, the QGIS
    project it observes, the file system and the Qt signal connections are
    threaded explicitly as one [World]; every handler is a function
    [World -> World * completion], where the completion records whether a
    Python exception left the handler. *)

From stdpp Require Import base strings list gmap.
From Stdlib Require Import ZArith.

Local Open Scope string_scope.
Local Open Scope list_scope.

(** ** Data *)

(** A map layer of the host.  The plugin never looks inside a layer: it
    only hands layers to [Settings.is_saved_layer], to the [Reader] and to
    the [Writer]. *)
Record Layer := mkLayer {
  layer_id : string;
  layer_name : string;
  layer_features : list string
}.

(** [QgsProject.instance()]: the part of the project the plugin queries.
    [mapLayers] keeps the order of [mapLayers().values()]. *)
Record Project := mkProject {
  fileName : string;
  attachedFiles : list string;
  mapLayers : list Layer;
  isDirty : bool
}.

Inductive ProjectSignal :=
| layerWasAdded | layerWillBeRemoved | readProject | writeProject | cleared.

Inductive LayerSignal :=
| committedAttributesDeleted
| committedAttributesAdded
| committedFeaturesRemoved
| committedFeaturesAdded
| committedAttributeValuesChanges
| committedGeometriesChanges.

(** The bound methods of the plugin object that are used as slots. *)
Inductive Slot :=
| slot_connect_layer | slot_load_data | slot_save_data
| slot_on_cleared | slot_set_project_dirty.

#[global] Instance ProjectSignal_eq_dec : EqDecision ProjectSignal.
Proof. solve_decision. Defined.
#[global] Instance LayerSignal_eq_dec : EqDecision LayerSignal.
Proof. solve_decision. Defined.
#[global] Instance Slot_eq_dec : EqDecision Slot.
Proof. solve_decision. Defined.

(** How a call ends: it returns, or an exception propagates out of it
    (carrying [str] of the exception). *)
Inductive completion :=
| Returned
| Raised (exc : string).

(** What a handler does to the outside, in order. *)
Inductive Effect :=
| Log (msg : string)
| MessageBox (title text : string)
| ReadLayers (filename : string) (layers : list Layer)
| WriteLayers (filename : string) (layers : list Layer)
| AttachedFileCreated (path : string).

Record World := mkWorld {
  has_modified_layers : bool;
  attached : bool;
  project : Project;
  versionInt : Z;
  files : gmap string string;
  project_connections : list (ProjectSignal * Slot);
  layer_connections : list (string * LayerSignal);
  trace : list Effect
}.

(** Field updates. *)
Definition set_has_modified_layers (b : bool) (w : World) : World :=
  mkWorld b (attached w) (project w) (versionInt w) (files w)
          (project_connections w) (layer_connections w) (trace w).

Definition set_attached (b : bool) (w : World) : World :=
  mkWorld (has_modified_layers w) b (project w) (versionInt w) (files w)
          (project_connections w) (layer_connections w) (trace w).

Definition set_project (p : Project) (w : World) : World :=
  mkWorld (has_modified_layers w) (attached w) p (versionInt w) (files w)
          (project_connections w) (layer_connections w) (trace w).

Definition set_files (fs : gmap string string) (w : World) : World :=
  mkWorld (has_modified_layers w) (attached w) (project w) (versionInt w) fs
          (project_connections w) (layer_connections w) (trace w).

Definition set_project_connections (c : list (ProjectSignal * Slot)) (w : World) : World :=
  mkWorld (has_modified_layers w) (attached w) (project w) (versionInt w) (files w)
          c (layer_connections w) (trace w).

Definition set_layer_connections (c : list (string * LayerSignal)) (w : World) : World :=
  mkWorld (has_modified_layers w) (attached w) (project w) (versionInt w) (files w)
          (project_connections w) c (trace w).

Definition emit_effect (e : Effect) (w : World) : World :=
  mkWorld (has_modified_layers w) (attached w) (project w) (versionInt w) (files w)
          (project_connections w) (layer_connections w) (trace w ++ [e]).

Definition setDirty (b : bool) (p : Project) : Project :=
  mkProject (fileName p) (attachedFiles p) (mapLayers p) b.

Definition set_attachedFiles (a : list string) (p : Project) : Project :=
  mkProject (fileName p) a (mapLayers p) (isDirty p).

Definition set_mapLayers (ls : list Layer) (p : Project) : Project :=
  mkProject (fileName p) (attachedFiles p) ls (isDirty p).

(** ** Collaborators that live outside the two source files *)

(** [settings.py]: the eligibility policy. *)
Class Settings := is_saved_layer : Layer -> bool.

(** [reader.py]: [with Reader(filename) as reader: reader.read_layers(layers)].
    The reader mutates the layer objects it is given; the result holds the
    layers as they are afterwards and the exception, if one was raised. *)
Class ArchiveReader :=
  read_layers : string -> gmap string string -> list Layer -> list Layer * option string.

(** [writer.py]: [with Writer(filename) as writer: writer.write_layers(layers)].
    The result holds the file system afterwards and the exception, if one
    was raised. *)
Class ArchiveWriter :=
  write_layers : string -> list Layer -> gmap string string -> gmap string string * option string.

(** The host's choice of a path for a new attachment
    ([QgsProject.createAttachedFile] fills a temporary-file template). *)
Class Host := attachment_path : string -> Project -> gmap string string -> string.

Arguments is_saved_layer : simpl never.
Arguments read_layers : simpl never.
Arguments write_layers : simpl never.
Arguments attachment_path : simpl never.

(** ** Host primitives used by the plugin *)

(** [str.endswith]. *)
Definition endswith (s suffix : string) : bool :=
  let n := String.length s in
  let k := String.length suffix in
  (k <=? n)%nat && String.eqb (String.substring (n - k) k s) suffix.

(** [QFile(filename).exists()]: no file has the empty name. *)
Definition QFile_exists (fs : gmap string string) (filename : string) : bool :=
  if String.eqb filename EmptyString then false else bool_decide (is_Some (fs !! filename)).

(** [toolbox.log]. *)
Definition log (msg : string) (w : World) : World := emit_effect (Log msg) w.

(** [self.tr]: without a translation the source text is returned. *)
Definition tr (message : string) : string := message.

(** The layer objects are shared with the project: what a reader did to a
    layer it was given is seen through [mapLayers] afterwards. *)
Definition write_back (updated all : list Layer) : list Layer :=
  map (fun x => default x (List.find (fun u => String.eqb (layer_id u) (layer_id x)) updated)) all.

Definition layer_signals : list LayerSignal :=
  [ committedAttributesDeleted; committedAttributesAdded;
    committedFeaturesRemoved; committedFeaturesAdded;
    committedAttributeValuesChanges; committedGeometriesChanges ].

(** The connections [__init__] makes on the signals of the project. *)
Definition subscriptions : list (ProjectSignal * Slot) :=
  [ (layerWasAdded, slot_connect_layer); (readProject, slot_load_data);
    (writeProject, slot_save_data); (cleared, slot_on_cleared) ].

(** [disconnect] undoes one connection: the first matching one. *)
Fixpoint remove_first {A} `{EqDecision A} (c : A) (cs : list A) : list A :=
  match cs with
  | [] => []
  | x :: rest => if decide (x = c) then rest else x :: remove_first c rest
  end.

(** [signal.disconnect(slot)] for each signal in turn; PyQt raises
    [TypeError] when the slot is not connected. *)
Fixpoint disconnect_signals (id : string) (sigs : list LayerSignal)
         (cs : list (string * LayerSignal)) : list (string * LayerSignal) * completion :=
  match sigs with
  | [] => (cs, Returned)
  | s :: rest =>
      if decide ((id, s) ∈ cs)
      then disconnect_signals id rest (remove_first (id, s) cs)
      else (cs, Raised "TypeError: disconnect() failed")
  end.

(** ** Observations on traces *)

Definition is_write (e : Effect) : bool :=
  match e with WriteLayers _ _ => true | _ => false end.

Definition is_read (e : Effect) : bool :=
  match e with ReadLayers _ _ => true | _ => false end.

Definition is_message (e : Effect) : bool :=
  match e with MessageBox _ _ => true | _ => false end.

Definition writes (w : World) : nat := length (List.filter is_write (trace w)).
Definition reads (w : World) : nat := length (List.filter is_read (trace w)).
Definition messages (w : World) : nat := length (List.filter is_message (trace w)).

(** [signal.disconnect(slot)] on a signal of the project; again PyQt raises
    [TypeError] when the slot is not connected. *)
Definition disconnect_project (c : ProjectSignal * Slot) (w : World) : World * completion :=
  if decide (c ∈ project_connections w)
  then (set_project_connections (remove_first c (project_connections w)) w, Returned)
  else (w, Raised "TypeError: disconnect() failed").

(** The part of the user interface that [unload] touches: [self.menu] (by
    its object name, absent until [initGui] has run), the submenus of
    [iface.pluginMenu()], the host setting that asks to save memory layers
    on exit and the value [Settings] keeps as its backup. *)
Record Gui := mkGui {
  menu : option string;
  pluginMenu : list string;
  ask_to_save_memory_layers : bool;
  backup_ask_to_save_memory_layers : bool
}.

Section Plugin.

Context `{Settings} `{ArchiveReader} `{ArchiveWriter} `{Host}.

(** [QgsProject.createAttachedFile(nameTemplate)]: a new, empty file in the
    project archive, registered as an attachment.  An existing file is never
    truncated (the temporary file is created exclusively). *)
Definition createAttachedFile (nameTemplate : string) (w : World) : World :=
  let path := attachment_path nameTemplate (project w) (files w) in
  let fs := match files w !! path with
            | Some _ => files w
            | None => <[path := EmptyString]> (files w)
            end in
  emit_effect (AttachedFileCreated path)
    (set_files fs
       (set_project (set_attachedFiles (attachedFiles (project w) ++ [path]) (project w)) w)).

(** ** memory_layer_saver.py *)

Definition on_cleared (w : World) : World * completion :=
  (set_has_modified_layers false w, Returned).

Definition set_project_dirty (w : World) : World * completion :=
  let w1 := set_has_modified_layers true w in
  (set_project (setDirty true (project w1)) w1, Returned).

Definition connect_layer (layer : Layer) (w : World) : World * completion :=
  if is_saved_layer layer then
    let w1 := set_layer_connections
                (layer_connections w ++ map (fun s => (layer_id layer, s)) layer_signals) w in
    (set_has_modified_layers true w1, Returned)
  else (w, Returned).

Definition disconnect_layer (layer : Layer) (w : World) : World * completion :=
  if is_saved_layer layer then
    match disconnect_signals (layer_id layer) layer_signals (layer_connections w) with
    | (cs, Returned) => (set_has_modified_layers true (set_layer_connections cs w), Returned)
    | (cs, Raised e) => (set_layer_connections cs w, Raised e)
    end
  else (w, Returned).

Definition memory_layers (w : World) : list Layer :=
  List.filter is_saved_layer (mapLayers (project w)).

Definition memory_layer_file (w : World) : string :=
  let name := fileName (project w) in
  if String.eqb name EmptyString then EmptyString
  else
    if (versionInt w >=? 32200)%Z then
      match List.find (fun attachment => endswith attachment "layers.mldata")
                      (attachedFiles (project w)) with
      | Some attachment => attachment
      | None => name +:+ ".mldata"
      end
    else name +:+ ".mldata".

Definition load_data (w : World) : World * completion :=
  let filename := memory_layer_file w in
  let w1 :=
    if QFile_exists (files w) filename then
      let w1 := log ("Loading memory layers from " +:+ filename) w in
      let layers := memory_layers w1 in
      match layers with
      | [] => w1
      | _ :: _ =>
          let '(layers', exc) := read_layers filename (files w1) layers in
          let w2 := emit_effect (ReadLayers filename layers)
                      (set_project
                         (set_mapLayers (write_back layers' (mapLayers (project w1))) (project w1))
                         w1) in
          match exc with
          | None => w2
          | Some e => emit_effect (MessageBox (tr "Error reloading memory layers") e) w2
          end
      end
    else w in
  (set_has_modified_layers false w1, Returned).

Definition save_data (w : World) : World * completion :=
  if negb (has_modified_layers w) then (w, Returned)
  else
    let w1 := if (versionInt w >=? 32200)%Z
              then createAttachedFile "layers.mldata" w else w in
    let filename := memory_layer_file w1 in
    let w2 := log ("Saving memory layers to " +:+ filename) w1 in
    let layers := memory_layers w2 in
    match layers with
    | [] => (set_has_modified_layers false w2, Returned)
    | _ :: _ =>
        let '(fs, exc) := write_layers filename layers (files w2) in
        let w3 := emit_effect (WriteLayers filename layers) (set_files fs w2) in
        match exc with
        | None => (set_has_modified_layers false w3, Returned)
        | Some e => (w3, Raised e)
        end
    end.

(** ** layer_connector.py *)

(** [connect_layer] and [disconnect_layer] below are the overriding methods
    of [MemoryLayerSaver]; the base class versions do nothing. *)
Fixpoint connect_layers_from (ls : list Layer) (w : World) : World * completion :=
  match ls with
  | [] => (w, Returned)
  | layer :: rest =>
      match connect_layer layer w with
      | (w1, Returned) => connect_layers_from rest w1
      | (w1, Raised e) => (w1, Raised e)
      end
  end.

Definition connect_layers (w : World) : World * completion :=
  connect_layers_from (mapLayers (project w)) w.

Fixpoint disconnect_layers_from (ls : list Layer) (w : World) : World * completion :=
  match ls with
  | [] => (w, Returned)
  | layer :: rest =>
      match disconnect_layer layer w with
      | (w1, Returned) => disconnect_layers_from rest w1
      | (w1, Raised e) => (w1, Raised e)
      end
  end.

Definition disconnect_layers (w : World) : World * completion :=
  disconnect_layers_from (mapLayers (project w)) w.

Definition attach (w : World) : World * completion :=
  let w1 := set_project_connections
              (project_connections w ++ [(layerWasAdded, slot_connect_layer)]) w in
  match connect_layers w1 with
  | (w2, Returned) => (set_attached true w2, Returned)
  | (w2, Raised e) => (w2, Raised e)
  end.

Definition detach (w : World) : World * completion :=
  if negb (attached w) then (w, Returned)
  else
    match disconnect_project (layerWasAdded, slot_connect_layer) w with
    | (w1, Returned) => disconnect_layers w1
    | (w1, Raised e) => (w1, Raised e)
    end.

(** [MemoryLayerSaver.__init__], with [LayerConnector.__init__] inlined. *)
Definition init (w : World) : World * completion :=
  let w0 := set_attached false w in
  match attach w0 with
  | (w1, Raised e) => (w1, Raised e)
  | (w1, Returned) =>
      let w2 := set_has_modified_layers (isDirty (project w1)) w1 in
      (set_project_connections
         (project_connections w2 ++
            [ (readProject, slot_load_data);
              (writeProject, slot_save_data);
              (cleared, slot_on_cleared) ]) w2,
       Returned)
  end.

(** ** Signal delivery *)

Definition call_slot (s : Slot) (arg : option Layer) (w : World) : World * completion :=
  match s with
  | slot_connect_layer =>
      match arg with
      | Some layer => connect_layer layer w
      | None => (w, Raised "TypeError: connect_layer() missing 1 required positional argument")
      end
  | slot_load_data => load_data w
  | slot_save_data => save_data w
  | slot_on_cleared => on_cleared w
  | slot_set_project_dirty => set_project_dirty w
  end.

(** Runs the slots in connection order; the second component collects the
    exceptions that left a handler and reached the host. *)
Fixpoint run_slots (slots : list Slot) (arg : option Layer) (w : World)
  : World * list string :=
  match slots with
  | [] => (w, [])
  | s :: rest =>
      let '(w1, c) := call_slot s arg w in
      let '(w2, escaped) := run_slots rest arg w1 in
      (w2, match c with Returned => escaped | Raised e => e :: escaped end)
  end.

Definition slots_of (sg : ProjectSignal) (cs : list (ProjectSignal * Slot)) : list Slot :=
  map snd (List.filter (fun c => bool_decide (c.1 = sg)) cs).

Definition emit_project (sg : ProjectSignal) (arg : option Layer) (w : World)
  : World * list string :=
  run_slots (slots_of sg (project_connections w)) arg w.

(** Every connection of a layer signal made by the plugin goes to
    [set_project_dirty]. *)
Definition layer_slots_of (id : string) (sg : LayerSignal)
           (cs : list (string * LayerSignal)) : list Slot :=
  map (fun _ => slot_set_project_dirty)
      (List.filter (fun c => bool_decide (c = (id, sg))) cs).

Definition emit_layer (id : string) (sg : LayerSignal) (w : World) : World * list string :=
  run_slots (layer_slots_of id sg (layer_connections w)) None w.

(** ** Host events *)

Definition host_add_layer (layer : Layer) (w : World) : World * list string :=
  emit_project layerWasAdded (Some layer)
    (set_project (set_mapLayers (mapLayers (project w) ++ [layer]) (project w)) w).

Definition host_remove_layer (layer : Layer) (w : World) : World * list string :=
  let '(w1, escaped) := emit_project layerWillBeRemoved (Some layer) w in
  (set_project
     (set_mapLayers
        (List.filter (fun x => negb (String.eqb (layer_id x) (layer_id layer)))
                     (mapLayers (project w1)))
        (project w1)) w1,
   escaped).

Definition host_read_project (w : World) : World * list string :=
  emit_project readProject None w.

Definition host_write_project (w : World) : World * list string :=
  emit_project writeProject None w.

Definition host_clear (w : World) : World * list string :=
  emit_project cleared None (set_project (set_mapLayers [] (project w)) w).

(** The world in which [save_data] looks for layers, once the flag was found
    set: the attachment is registered and the target is logged. *)
Definition before_write (w : World) : World :=
  let w1 := if (versionInt w >=? 32200)%Z
            then createAttachedFile "layers.mldata" w else w in
  log ("Saving memory layers to " +:+ memory_layer_file w1) w1.

(** The file name [save_data] computes once the flag was found set. *)
Definition save_target (w : World) : string :=
  memory_layer_file (if (versionInt w >=? 32200)%Z
                     then createAttachedFile "layers.mldata" w else w).

(** [MemoryLayerSaver.unload]. *)
Definition unload (g : Gui) (w : World) : Gui * World * completion :=
  match menu g with
  | None => (g, w, Raised "AttributeError: 'MemoryLayerSaver' object has no attribute 'menu'")
  | Some m =>
      let g1 := mkGui (menu g)
                      (List.filter (fun x => negb (String.eqb x m)) (pluginMenu g))
                      (ask_to_save_memory_layers g)
                      (backup_ask_to_save_memory_layers g) in
      match detach w with
      | (w1, Raised e) => (g1, w1, Raised e)
      | (w1, Returned) =>
          match disconnect_project (readProject, slot_load_data) w1 with
          | (w2, Raised e) => (g1, w2, Raised e)
          | (w2, Returned) =>
              match disconnect_project (writeProject, slot_save_data) w2 with
              | (w3, Raised e) => (g1, w3, Raised e)
              | (w3, Returned) =>
                  (mkGui (menu g1) (pluginMenu g1)
                         (backup_ask_to_save_memory_layers g1)
                         (backup_ask_to_save_memory_layers g1),
                   log "MemoryLayerSaver unloaded" w3,
                   Returned)
              end
          end
      end
  end.

(** The connections [connect_layer] makes for one layer, and the ones made
    for the eligible layers of a list, in order. *)
Definition signals_of (layer : Layer) : list (string * LayerSignal) :=
  map (fun s => (layer_id layer, s)) layer_signals.

Definition wiring (ls : list Layer) : list (string * LayerSignal) :=
  concat (map signals_of (List.filter is_saved_layer ls)).

End Plugin.

(** ** Concrete collaborators and worlds

    Small instances of the collaborators, used to run the handlers. *)
Module Scenario.

(** Layers whose identifier starts with [mem] are eligible. *)
Definition memory_only : Settings :=
  fun layer => String.prefix "mem" (layer_id layer).

(** A reader that restores nothing and succeeds. *)
Definition reader_ok : ArchiveReader :=
  fun _ _ layers => (layers, None).

(** A reader that fails on a truncated archive. *)
Definition reader_corrupt : ArchiveReader :=
  fun _ _ layers => (layers, Some "unpack requires a buffer of 4 bytes").

(** A writer that stores one line per layer. *)
Definition writer_ok : ArchiveWriter :=
  fun filename layers fs =>
    (<[filename := String.concat ";" (map layer_id layers)]> fs, None).

(** A writer that cannot open its target. *)
Definition writer_denied : ArchiveWriter :=
  fun filename _ fs => (fs, Some ("Permission denied: " +:+ filename)).

Definition archive_dir : Host :=
  fun nameTemplate _ _ => "/tmp/qgis_archive/a1b2c3_" +:+ nameTemplate.

Definition points : Layer := mkLayer "mem_points" "pts" ["f1"; "f2"; "f3"].
Definition roads : Layer := mkLayer "ogr_roads" "roads" [].

Definition town : Project := mkProject "/home/u/town.qgs" [] [points; roads] false.

(** The host before the plugin is constructed. *)
Definition host (p : Project) (v : Z) (fs : gmap string string) : World :=
  mkWorld false false p v fs [] [] [].

Definition sidecar : gmap string string :=
  {[ "/home/u/town.qgs.mldata" := "mem_points" ]}.

(** The plugin constructed on the open project. *)
Definition started (v : Z) (fs : gmap string string) : World :=
  (@init memory_only (host town v fs)).1.

(** The project read: the state is Clean. *)
Definition opened (v : Z) (fs : gmap string string) : World :=
  (@load_data memory_only reader_ok (started v fs)).1.

(** A feature committed to the memory layer: the state is Dirty. *)
Definition edited (v : Z) (fs : gmap string string) : World :=
  (@emit_layer memory_only reader_ok writer_ok archive_dir
               "mem_points" committedFeaturesAdded (opened v fs)).1.

(** A project in which no layer is eligible, next to an older archive. *)
Definition roads_only : World :=
  mkWorld true true (mkProject "/home/u/town.qgs" [] [roads] true) 32200 sidecar [] [] [].

(** A project that was never saved. *)
Definition unnamed : World :=
  mkWorld true true (mkProject EmptyString [] [points] true) 32200 sidecar [] [] [].

(** A project with an embedded archive. *)
Definition packed : World :=
  mkWorld false true
    (mkProject "/home/u/town.qgz"
               ["/tmp/qgis_archive/town.qgd"; "/tmp/qgis_archive/a1b2c3_layers.mldata"]
               [points] false)
    32200 sidecar [] [] [].

(** A project that was never saved and yet holds an embedded archive, on a
    host with attachments. *)
Definition unnamed_packed : World :=
  mkWorld false true
    (mkProject EmptyString ["/tmp/qgis_archive/a1b2c3_layers.mldata"] [points] true)
    32200 sidecar [] [] [].

(** A layer backed by a file, not yet in the project. *)
Definition rivers : Layer := mkLayer "ogr_rivers" "rivers" ["r1"].

(** The user interface once [initGui] has run. *)
Definition installed : Gui :=
  mkGui (Some "memory_layer_saver_menu") ["processing"; "memory_layer_saver_menu"] false true.

End Scenario.

(** * Properties *)

Section Properties.

Context `{Settings} `{ArchiveReader} `{ArchiveWriter} `{Host}.

(** ** The save path *)

Lemma save_data_dirty w :
  has_modified_layers w = true ->
  save_data w =
    match memory_layers (before_write w) with
    | [] => (set_has_modified_layers false (before_write w), Returned)
    | _ :: _ =>
        let out := write_layers (memory_layer_file
                                   (if (versionInt w >=? 32200)%Z
                                    then createAttachedFile "layers.mldata" w else w))
                                (memory_layers (before_write w))
                                (files (before_write w)) in
        let w3 := emit_effect
                    (WriteLayers (memory_layer_file
                                    (if (versionInt w >=? 32200)%Z
                                     then createAttachedFile "layers.mldata" w else w))
                                 (memory_layers (before_write w)))
                    (set_files out.1 (before_write w)) in
        match out.2 with
        | None => (set_has_modified_layers false w3, Returned)
        | Some e => (w3, Raised e)
        end
    end.
Proof.
  intros Hd. unfold save_data, before_write. rewrite Hd. cbn [negb].
  destruct (memory_layers _) as [|l ls]; [reflexivity|].
  destruct (write_layers _ _ _) as [fs [e|]]; reflexivity.
Qed.

Lemma before_write_layers w : memory_layers (before_write w) = memory_layers w.
Proof. unfold before_write, memory_layers. destruct (versionInt w >=? 32200)%Z; reflexivity. Qed.

Lemma before_write_flag w :
  has_modified_layers (before_write w) = has_modified_layers w.
Proof. unfold before_write. destruct (versionInt w >=? 32200)%Z; reflexivity. Qed.

Lemma writes_emit_effect e w :
  writes (emit_effect e w) = writes w + (if is_write e then 1 else 0).
Proof.
  unfold writes. cbn [emit_effect trace].
  rewrite List.filter_app, length_app. destruct (is_write e) eqn:He; cbn; rewrite He; cbn; lia.
Qed.

Lemma writes_set_flag b w : writes (set_has_modified_layers b w) = writes w.
Proof. reflexivity. Qed.

Lemma writes_set_files fs w : writes (set_files fs w) = writes w.
Proof. reflexivity. Qed.

Lemma before_write_writes w : writes (before_write w) = writes w.
Proof.
  unfold before_write, log, createAttachedFile.
  destruct (versionInt w >=? 32200)%Z; rewrite !writes_emit_effect; cbn [is_write];
    rewrite ?writes_set_files; unfold writes; cbn [trace set_project]; lia.
Qed.

Lemma before_write_files w path content :
  files w !! path = Some content -> files (before_write w) !! path = Some content.
Proof.
  intros Hp. unfold before_write.
  destruct (versionInt w >=? 32200)%Z; cbn; [|exact Hp].
  set (p := attachment_path _ _ _).
  destruct (files w !! p) eqn:Hq; [exact Hp|].
  rewrite lookup_insert_ne; [exact Hp|]. intros ->. congruence.
Qed.

(** A save request found Clean returns at once and leaves the world as it is. *)
Lemma save_data_clean w :
  has_modified_layers w = false -> save_data w = (w, Returned).
Proof. intros Hc. unfold save_data. rewrite Hc. reflexivity. Qed.

(** A save request that returns leaves the flag cleared. *)
Lemma save_data_returned_clean w w1 :
  save_data w = (w1, Returned) -> has_modified_layers w1 = false.
Proof.
  destruct (has_modified_layers w) eqn:Hd.
  - rewrite (save_data_dirty w Hd).
    destruct (memory_layers _); [intros [= <-]; reflexivity|].
    cbn zeta. destruct (write_layers _ _ _).2; intros [= <-]; reflexivity.
  - rewrite (save_data_clean w Hd). intros [= <-]. exact Hd.
Qed.

(** A save request invokes the writer at most once. *)
Lemma save_data_writes w : writes (save_data w).1 <= S (writes w).
Proof.
  destruct (has_modified_layers w) eqn:Hd.
  - rewrite (save_data_dirty w Hd).
    destruct (memory_layers _).
    + cbn [fst]. rewrite writes_set_flag, before_write_writes. lia.
    + cbn zeta. destruct (write_layers _ _ _).2; cbn [fst];
        rewrite ?writes_set_flag, writes_emit_effect, writes_set_files,
                before_write_writes; cbn; lia.
  - rewrite (save_data_clean w Hd). cbn. lia.
Qed.

(** A save request whose writer raises leaves the flag set. *)
Lemma save_data_raised_dirty w w1 e :
  save_data w = (w1, Raised e) ->
  has_modified_layers w = true /\ has_modified_layers w1 = true.
Proof.
  destruct (has_modified_layers w) eqn:Hd.
  - rewrite (save_data_dirty w Hd).
    destruct (memory_layers _); [intros [=]|].
    cbn zeta. destruct (write_layers _ _ _).2; intros [= <- _].
    split; [reflexivity|].
    cbn [has_modified_layers emit_effect set_files].
    rewrite before_write_flag. exact Hd.
  - rewrite (save_data_clean w Hd). intros [=].
Qed.

(** ** The load path *)

(** A load request never lets an exception out. *)
Lemma load_data_returns w : (load_data w).2 = Returned.
Proof. reflexivity. Qed.

Lemma load_data_clean w : has_modified_layers (load_data w).1 = false.
Proof. reflexivity. Qed.

Lemma load_data_missing w :
  QFile_exists (files w) (memory_layer_file w) = false ->
  load_data w = (set_has_modified_layers false w, Returned).
Proof. intros He. unfold load_data. rewrite He. reflexivity. Qed.

Lemma load_data_trace w :
  QFile_exists (files w) (memory_layer_file w) = true ->
  trace (load_data w).1 =
    trace w ++
    Log ("Loading memory layers from " +:+ memory_layer_file w) ::
    match memory_layers w with
    | [] => []
    | _ :: _ =>
        ReadLayers (memory_layer_file w) (memory_layers w) ::
        match (read_layers (memory_layer_file w) (files w) (memory_layers w)).2 with
        | None => []
        | Some e => [MessageBox "Error reloading memory layers" e]
        end
    end.
Proof.
  intros He. unfold load_data. rewrite He.
  change (memory_layers (log _ w)) with (memory_layers w).
  destruct (memory_layers w) as [|l ls]; [reflexivity|].
  change (files (log _ w)) with (files w).
  destruct (read_layers _ _ _) as [ls' [e|]]; cbn; rewrite <- ?app_assoc; reflexivity.
Qed.

(** ** Load and save requests *)

(** C1 (amended).  A save request that finds the state Clean returns at
    once and changes nothing: no effect is emitted, no file is touched.
    For every state, when a save request returns without raising, the
    next save request (no mutation notification in between) is such a
    no-op, so that the two requests together invoke the writer at most
    once. *)
Theorem save_clean_noop_then_idempotent w :
  (has_modified_layers w = false -> save_data w = (w, Returned)) /\
  (forall w1, save_data w = (w1, Returned) ->
     save_data w1 = (w1, Returned) /\ writes (save_data w1).1 <= S (writes w)).
Proof.
  split; [apply save_data_clean|].
  intros w1 Hs.
  pose proof (save_data_returned_clean w w1 Hs) as Hc.
  rewrite (save_data_clean w1 Hc). split; [reflexivity|].
  pose proof (save_data_writes w) as Hw. rewrite Hs in Hw. exact Hw.
Qed.

(** C2 (amended).  Every load request returns with the state reset to
    Clean: also when the reader raised (the error is caught) and when no
    read was performed.  On the save path the flag survives a failure: a
    save request whose writer raises started Dirty and leaves the state
    Dirty. *)
Theorem load_resets_flag_failed_save_keeps_it w :
  ((load_data w).2 = Returned /\ has_modified_layers (load_data w).1 = false) /\
  (forall w1 e, save_data w = (w1, Raised e) ->
     has_modified_layers w = true /\ has_modified_layers w1 = true).
Proof.
  split; [split; reflexivity|]. intros w1 e. apply save_data_raised_dirty.
Qed.

(** C5 (amended).  On a load request, when the archive file exists and at
    least one layer is eligible, the reader is invoked once, on that file
    and over exactly the eligible layers; when the file exists and no layer
    is eligible, the reader is not invoked; when the file does not exist,
    the request completes silently: nothing is logged, read or reported.
    In every case the request returns. *)
Theorem load_reads_when_artifact_and_layers w :
  (load_data w).2 = Returned /\
  (QFile_exists (files w) (memory_layer_file w) = true ->
     (memory_layers w <> [] ->
        exists report,
          trace (load_data w).1 =
            trace w ++
            [ Log ("Loading memory layers from " +:+ memory_layer_file w);
              ReadLayers (memory_layer_file w) (memory_layers w) ] ++ report /\
          List.filter is_read report = []) /\
     (memory_layers w = [] -> reads (load_data w).1 = reads w)) /\
  (QFile_exists (files w) (memory_layer_file w) = false ->
     load_data w = (set_has_modified_layers false w, Returned)).
Proof.
  split; [reflexivity|]. split; [|apply load_data_missing].
  intros He. pose proof (load_data_trace w He) as Ht. split.
  - intros Hl. destruct (memory_layers w) as [|l ls]; [congruence|].
    destruct (read_layers _ _ _).2 as [e|];
      [exists [MessageBox "Error reloading memory layers" e] | exists []];
      (split; [exact Ht | reflexivity]).
  - intros Hl. rewrite Hl in Ht. unfold reads. rewrite Ht.
    rewrite List.filter_app, length_app. cbn. lia.
Qed.

(** C9.  A save request that finds the state Dirty while no layer is
    eligible returns with the state Clean, does not invoke the writer, and
    leaves every file that existed with the content it had. *)
Theorem save_dirty_without_layers w :
  has_modified_layers w = true ->
  memory_layers w = [] ->
  (save_data w).2 = Returned /\
  has_modified_layers (save_data w).1 = false /\
  writes (save_data w).1 = writes w /\
  (forall path content,
     files w !! path = Some content -> files (save_data w).1 !! path = Some content).
Proof.
  intros Hd Hl. rewrite (save_data_dirty w Hd), before_write_layers, Hl.
  cbn [fst snd]. repeat split.
  - rewrite writes_set_flag. apply before_write_writes.
  - intros path content Hp. cbn [files set_has_modified_layers].
    apply before_write_files, Hp.
Qed.

(** C10.  For a project without a file name the archive location is the
    empty string, and a load request reads nothing: it returns with the
    flag cleared and the world otherwise as it was. *)
Theorem load_without_file_name w :
  fileName (project w) = EmptyString ->
  memory_layer_file w = EmptyString /\
  load_data w = (set_has_modified_layers false w, Returned) /\
  reads (load_data w).1 = reads w.
Proof.
  intros Hn.
  assert (Hf : memory_layer_file w = EmptyString) by (unfold memory_layer_file; rewrite Hn; reflexivity).
  assert (Hl : load_data w = (set_has_modified_layers false w, Returned)).
  { apply load_data_missing. rewrite Hf. reflexivity. }
  repeat split; [exact Hf | exact Hl |]. rewrite Hl. reflexivity.
Qed.

(** ** The archive location *)

Lemma find_first {A} (p : A -> bool) pre a post :
  Forall (fun x => p x = false) pre -> p a = true ->
  List.find p (pre ++ a :: post) = Some a.
Proof.
  induction 1 as [|x pre Hx _ IH]; intros Ha; cbn.
  - rewrite Ha. reflexivity.
  - rewrite Hx. apply IH, Ha.
Qed.

Lemma find_absent {A} (p : A -> bool) l :
  Forall (fun x => p x = false) l -> List.find p l = None.
Proof. induction 1 as [|x l Hx _ IH]; cbn; [reflexivity|]. rewrite Hx. exact IH. Qed.

Lemma file_name_given name : name <> EmptyString -> String.eqb name EmptyString = false.
Proof. intros Hn. apply String.eqb_neq, Hn. Qed.

(** C7 (amended).  For a project that has a file name: on a host with attachments
    (version 3.22 or later) the location is the first attachment whose name
    ends in [layers.mldata], whenever there is one; the sidecar path, the
    project file name followed by [.mldata], is the answer when the host has
    no attachments or none of them has that name. *)
Theorem memory_layer_file_attachment_first w :
  fileName (project w) <> EmptyString ->
  (forall pre a post,
     (32200 <= versionInt w)%Z ->
     attachedFiles (project w) = pre ++ a :: post ->
     Forall (fun x => endswith x "layers.mldata" = false) pre ->
     endswith a "layers.mldata" = true ->
     memory_layer_file w = a) /\
  ((versionInt w < 32200)%Z \/
   Forall (fun x => endswith x "layers.mldata" = false) (attachedFiles (project w)) ->
   memory_layer_file w = fileName (project w) +:+ ".mldata").
Proof.
  intros Hn. unfold memory_layer_file. rewrite (file_name_given _ Hn). split.
  - intros pre a post Hv Ha Hpre Hend.
    rewrite Z.geb_leb. rewrite (proj2 (Z.leb_le _ _) Hv).
    rewrite Ha, (find_first _ pre a post Hpre Hend). reflexivity.
  - intros [Hv | Hnone].
    + rewrite Z.geb_leb. rewrite (proj2 (Z.leb_gt _ _) Hv). reflexivity.
    + rewrite (find_absent _ _ Hnone). destruct (versionInt w >=? 32200)%Z; reflexivity.
Qed.

(** ** Mutation notifications *)

Lemma run_dirty_slots {A} (l : list A) w :
  run_slots (map (fun _ => slot_set_project_dirty) l) None w =
    (match l with [] => w | _ :: _ => (set_project_dirty w).1 end, []).
Proof.
  revert w. induction l as [|x l IH]; intros w; [reflexivity|].
  cbn [map run_slots call_slot]. cbn [set_project_dirty]. rewrite IH.
  destruct l; reflexivity.
Qed.

Lemma connected_slots id sg cs :
  (id, sg) ∈ cs ->
  List.filter (fun c : string * LayerSignal => bool_decide (c = (id, sg))) cs <> [].
Proof.
  intros Hin Hnil.
  assert (Hf : In (id, sg)
                 (List.filter (fun c : string * LayerSignal => bool_decide (c = (id, sg))) cs)).
  { apply List.filter_In. split; [apply list_elem_of_In, Hin|].
    apply bool_decide_eq_true. reflexivity. }
  rewrite Hnil in Hf. exact Hf.
Qed.

Lemma emit_layer_connected id sg w :
  (id, sg) ∈ layer_connections w ->
  emit_layer id sg w = ((set_project_dirty w).1, []).
Proof.
  intros Hin. unfold emit_layer, layer_slots_of. rewrite run_dirty_slots.
  pose proof (connected_slots id sg _ Hin) as Hne.
  destruct (List.filter _ _); [congruence | reflexivity].
Qed.

Lemma connect_layer_connects layer sg w :
  is_saved_layer layer = true ->
  (layer_id layer, sg) ∈ layer_connections (connect_layer layer w).1.
Proof.
  intros He. unfold connect_layer. rewrite He. cbn.
  apply elem_of_app. right. destruct sg; cbn; set_solver.
Qed.

(** C3.  Once [connect_layer] has seen an eligible layer, every one of the
    six commit notifications of that layer sets the flag, whatever the state
    was; this holds in every later world that still has the connections. *)
Theorem mutation_marks_dirty layer sg w w' :
  is_saved_layer layer = true ->
  layer_connections (connect_layer layer w).1 ⊆ layer_connections w' ->
  has_modified_layers (emit_layer (layer_id layer) sg w').1 = true /\
  (emit_layer (layer_id layer) sg w').2 = [].
Proof.
  intros He Hsub.
  rewrite emit_layer_connected; [split; reflexivity|].
  apply Hsub, connect_layer_connects, He.
Qed.

(** C8.  The handler of a commit notification of a connected layer sets
    the plugin's flag and the project's own dirty flag, and nothing else:
    the layers, the file name, the attachments, the files, the connections
    and the trace are as before, and no exception leaves the handler. *)
Theorem mutation_handler_frame id sg w :
  (id, sg) ∈ layer_connections w ->
  emit_layer id sg w =
    (mkWorld true (attached w)
             (mkProject (fileName (project w)) (attachedFiles (project w))
                        (mapLayers (project w)) true)
             (versionInt w) (files w)
             (project_connections w) (layer_connections w) (trace w),
     []).
Proof. intros Hin. rewrite (emit_layer_connected id sg w Hin). reflexivity. Qed.

(** ** Layers entering and leaving the project *)

Lemma connect_layer_returns layer w : (connect_layer layer w).2 = Returned.
Proof. unfold connect_layer. destruct (is_saved_layer layer); reflexivity. Qed.

Lemma connect_layer_project_connections layer w :
  project_connections (connect_layer layer w).1 = project_connections w.
Proof. unfold connect_layer. destruct (is_saved_layer layer); reflexivity. Qed.

Lemma connect_layers_from_returns ls w :
  (connect_layers_from ls w).2 = Returned /\
  project_connections (connect_layers_from ls w).1 = project_connections w.
Proof.
  revert w. induction ls as [|layer ls IH]; intros w; [split; reflexivity|].
  cbn [connect_layers_from].
  pose proof (connect_layer_returns layer w) as Hr.
  pose proof (connect_layer_project_connections layer w) as Hp.
  destruct (connect_layer layer w) as [w1 c]. cbn in Hr, Hp. subst c.
  rewrite <- Hp. apply IH.
Qed.

(** The constructor subscribes to four project signals and to no other. *)
Lemma init_subscriptions w :
  (init w).2 = Returned /\
  project_connections (init w).1 =
    project_connections w ++
    [ (layerWasAdded, slot_connect_layer); (readProject, slot_load_data);
      (writeProject, slot_save_data); (cleared, slot_on_cleared) ].
Proof.
  unfold init, attach, connect_layers.
  match goal with |- context [connect_layers_from ?ls ?w0] =>
    pose proof (connect_layers_from_returns ls w0) as [Hr Hp];
    destruct (connect_layers_from ls w0) as [w2 c] end.
  cbn in Hr, Hp. subst c. cbn. rewrite Hp. cbn. rewrite <- app_assoc. split; reflexivity.
Qed.

(** A layer added to the project: the eligible ones set the flag. *)
Lemma layer_added_marks_dirty layer w :
  slots_of layerWasAdded (project_connections w) = [slot_connect_layer] ->
  is_saved_layer layer = true ->
  has_modified_layers (host_add_layer layer w).1 = true.
Proof.
  intros Hs He. unfold host_add_layer, emit_project. cbn [project_connections set_project].
  rewrite Hs. cbn [run_slots call_slot]. unfold connect_layer. rewrite He. reflexivity.
Qed.

(** A layer removed from the project: with no slot on the removal signal
    the plugin is not told, and its flag stays as it is. *)
Lemma layer_removed_unnoticed layer w :
  slots_of layerWillBeRemoved (project_connections w) = [] ->
  has_modified_layers (host_remove_layer layer w).1 = has_modified_layers w /\
  trace (host_remove_layer layer w).1 = trace w.
Proof.
  intros Hs. unfold host_remove_layer, emit_project. rewrite Hs. split; reflexivity.
Qed.

(** [disconnect_layer], when it does run on a connected eligible layer,
    sets the flag. *)
Lemma disconnect_layer_marks_dirty layer w w1 :
  is_saved_layer layer = true ->
  disconnect_layer layer w = (w1, Returned) ->
  has_modified_layers w1 = true.
Proof.
  intros He. unfold disconnect_layer. rewrite He.
  destruct (disconnect_signals _ _ _) as [cs [|e]]; intros [= <-]; reflexivity.
Qed.

End Properties.

(** * The handlers run on concrete worlds *)

Import Scenario.

(** After the edit, the first save writes and returns; the
    second one changes nothing. *)
Lemma save_clean_noop_then_idempotent_witness :
  let save := @save_data memory_only writer_ok archive_dir in
  let w := edited 31600 sidecar in
  save (opened 31600 sidecar) = (opened 31600 sidecar, Returned) /\
  save (save w).1 = ((save w).1, Returned) /\
  writes (save (save w).1).1 <= S (writes w).
Proof.
  cbv zeta. split.
  - apply (@save_clean_noop_then_idempotent memory_only writer_ok archive_dir
             (opened 31600 sidecar)).
    vm_compute. reflexivity.
  - apply (@save_clean_noop_then_idempotent memory_only writer_ok archive_dir
             (edited 31600 sidecar)).
    vm_compute. reflexivity.
Defined.

(** Two consecutive save requests around a failing writer.  When the writer raises,
    the flag stays set, and the second of two consecutive save requests
    invokes the writer again: two invocations, not at most one. *)
Lemma save_twice_after_failed_write :
  let save := @save_data memory_only writer_denied archive_dir in
  let w := edited 31600 sidecar in
  (save w).2 = Raised "Permission denied: /home/u/town.qgs.mldata" /\
  writes (save (save w).1).1 = 2 + writes w /\
  ~ (writes (save (save w).1).1 <= 1 + writes w).
Proof. cbv zeta. vm_compute. repeat split. lia. Qed.

(** A save whose writer raises leaves the state Dirty. *)
Lemma load_resets_flag_failed_save_keeps_it_witness :
  let save := @save_data memory_only writer_denied archive_dir in
  let w := edited 31600 sidecar in
  has_modified_layers w = true /\ has_modified_layers (save w).1 = true.
Proof.
  cbv zeta.
  apply (proj2 (@load_resets_flag_failed_save_keeps_it
                  memory_only reader_ok writer_denied archive_dir (edited 31600 sidecar))
               _ "Permission denied: /home/u/town.qgs.mldata").
  vm_compute. reflexivity.
Defined.

(** A load request around a failing reader.  The state is Dirty, the
    archive exists, the reader raises on it: the load request still resets
    the state to Clean. *)
Lemma failed_load_clears_flag :
  let w := edited 31600 sidecar in
  (@read_layers reader_corrupt (@memory_layer_file w) (files w)
                (@memory_layers memory_only w)).2
    = Some "unpack requires a buffer of 4 bytes" /\
  has_modified_layers w = true /\
  has_modified_layers (@load_data memory_only reader_corrupt w).1 = false.
Proof. cbv zeta. vm_compute. repeat split. Qed.

(** The project was read, so the state is Clean; a
    geometry change committed on the memory layer makes it Dirty. *)
Lemma mutation_marks_dirty_witness :
  has_modified_layers (opened 31600 sidecar) = false /\
  has_modified_layers
    (@emit_layer memory_only reader_ok writer_ok archive_dir
       "mem_points" committedGeometriesChanges (opened 31600 sidecar)).1 = true.
Proof.
  split; [reflexivity|].
  apply (@mutation_marks_dirty memory_only reader_ok writer_ok archive_dir
           points committedGeometriesChanges (host town 31600 sidecar)
           (opened 31600 sidecar)).
  - reflexivity.
  - vm_compute. intros x Hx. exact Hx.
Defined.

(** The archive exists and one layer is eligible: the
    reader runs once, over that layer. *)
Lemma load_reads_when_artifact_and_layers_witness :
  exists report,
    trace (@load_data memory_only reader_corrupt (started 31600 sidecar)).1 =
      [ Log "Loading memory layers from /home/u/town.qgs.mldata";
        ReadLayers "/home/u/town.qgs.mldata" [points] ] ++ report /\
    List.filter is_read report = [].
Proof.
  destruct (@load_reads_when_artifact_and_layers memory_only reader_corrupt
              (started 31600 sidecar)) as [_ [Hex _]].
  destruct (Hex ltac:(vm_compute; reflexivity)) as [Hread _].
  apply Hread. vm_compute. discriminate.
Defined.

(** A load request in a project without eligible layers.  The archive exists, yet
    the reader is not invoked: no layer of the project is eligible. *)
Lemma load_without_eligible_layers_skips_reader :
  QFile_exists (files roads_only) (memory_layer_file roads_only) = true /\
  trace (@load_data memory_only reader_ok roads_only).1 =
    [ Log "Loading memory layers from /home/u/town.qgs.mldata" ] /\
  reads (@load_data memory_only reader_ok roads_only).1 = 0.
Proof. vm_compute. repeat split. Qed.

(** The embedded archive is found behind another
    attachment; without attachments the sidecar path is the answer. *)
Lemma memory_layer_file_attachment_first_witness :
  memory_layer_file packed = "/tmp/qgis_archive/a1b2c3_layers.mldata" /\
  memory_layer_file (started 32200 sidecar) = "/home/u/town.qgs.mldata".
Proof.
  split.
  - apply (proj1 (memory_layer_file_attachment_first packed ltac:(discriminate))
                 ["/tmp/qgis_archive/town.qgd"] _ []).
    + vm_compute. discriminate.
    + reflexivity.
    + repeat constructor.
    + reflexivity.
  - apply (proj2 (memory_layer_file_attachment_first (started 32200 sidecar)
                    ltac:(discriminate))).
    right. constructor.
Defined.

(** The archive location of a project without a file name.  The host has
    attachments and the only attachment ends in [layers.mldata], yet the
    location is the empty string: the file name is tested before the
    attachments are looked at.  The location is not the sidecar path either.
    The project is the one a save request leaves behind on a project that
    was never saved. *)
Lemma unnamed_project_ignores_attachment :
  (32200 <= versionInt unnamed_packed)%Z /\
  attachedFiles (project unnamed_packed) = ["/tmp/qgis_archive/a1b2c3_layers.mldata"] /\
  endswith "/tmp/qgis_archive/a1b2c3_layers.mldata" "layers.mldata" = true /\
  memory_layer_file unnamed_packed = EmptyString /\
  memory_layer_file unnamed_packed <> "/tmp/qgis_archive/a1b2c3_layers.mldata" /\
  memory_layer_file unnamed_packed <> fileName (project unnamed_packed) +:+ ".mldata" /\
  project (@save_data memory_only writer_ok archive_dir unnamed).1 = project unnamed_packed.
Proof.
  split; [vm_compute; discriminate|].
  split; [reflexivity|]. split; [reflexivity|]. split; [reflexivity|].
  split; [vm_compute; discriminate|]. split; [vm_compute; discriminate|].
  vm_compute. reflexivity.
Qed.

(** A commit notification on the project just read changes the two flags only. *)
Lemma mutation_handler_frame_witness :
  let w := opened 31600 sidecar in
  @emit_layer memory_only reader_ok writer_ok archive_dir
     "mem_points" committedAttributesAdded w =
    (mkWorld true true (mkProject "/home/u/town.qgs" [] [points; roads] true)
             31600 sidecar (project_connections w) (layer_connections w) (trace w),
     []).
Proof.
  cbv zeta.
  apply (@mutation_handler_frame memory_only reader_ok writer_ok archive_dir
           "mem_points" committedAttributesAdded (opened 31600 sidecar)).
  vm_compute. set_solver.
Defined.

(** Saving without eligible layers: the older archive keeps its content. *)
Lemma save_dirty_without_layers_witness :
  let save := @save_data memory_only writer_ok archive_dir in
  (save roads_only).2 = Returned /\
  has_modified_layers (save roads_only).1 = false /\
  writes (save roads_only).1 = writes roads_only /\
  files (save roads_only).1 !! "/home/u/town.qgs.mldata" = Some "mem_points".
Proof.
  cbv zeta.
  destruct (@save_dirty_without_layers memory_only writer_ok archive_dir roads_only
              eq_refl eq_refl) as (Hr & Hc & Hw & Hf).
  split; [exact Hr|]. split; [exact Hc|]. split; [exact Hw|].
  apply Hf. vm_compute. reflexivity.
Defined.

(** Loading a project that was never saved. *)
Lemma load_without_file_name_witness :
  memory_layer_file unnamed = EmptyString /\
  @load_data memory_only reader_ok unnamed = (set_has_modified_layers false unnamed, Returned) /\
  reads (@load_data memory_only reader_ok unnamed).1 = reads unnamed.
Proof. apply (@load_without_file_name memory_only reader_ok unnamed). reflexivity. Defined.

(** C4.  The removal of an eligible layer is not noticed.  The plugin is
    constructed, the project is read (Clean), and the host removes the
    memory layer: the eligible set is now empty, the state is still Clean,
    and the next save request does nothing.  The addition of the same layer
    does set the flag. *)
Lemma removed_layer_leaves_state_clean :
  let remove := @host_remove_layer memory_only reader_ok writer_ok archive_dir in
  let add := @host_add_layer memory_only reader_ok writer_ok archive_dir in
  let w := opened 31600 sidecar in
  slots_of layerWillBeRemoved (project_connections w) = [] /\
  has_modified_layers w = false /\
  @memory_layers memory_only w = [points] /\
  @memory_layers memory_only (remove points w).1 = [] /\
  has_modified_layers (remove points w).1 = false /\
  @save_data memory_only writer_ok archive_dir (remove points w).1
    = ((remove points w).1, Returned) /\
  has_modified_layers (add points (remove points w).1).1 = true.
Proof. cbv zeta. vm_compute. repeat split. Qed.

(** C6.  An error of the writer leaves the save handler.  On the
    project-write signal the exception reaches the host and no message box
    is shown; on the project-read signal the error of the reader is caught
    and shown. *)
Lemma failed_write_escapes_save_handler :
  let write := @host_write_project memory_only reader_ok writer_denied archive_dir in
  let read := @host_read_project memory_only reader_corrupt writer_ok archive_dir in
  let w := edited 31600 sidecar in
  (write w).2 = ["Permission denied: /home/u/town.qgs.mldata"] /\
  messages (write w).1 = 0 /\
  (read w).2 = [] /\
  messages (read w).1 = 1.
Proof. cbv zeta. vm_compute. repeat split. Qed.

(** * The life of the plugin object *)

Section Lifecycle.

Context `{Settings} `{ArchiveReader} `{ArchiveWriter} `{Host}.

(** ** Construction *)

Lemma world_eta w :
  mkWorld (has_modified_layers w) (attached w) (project w) (versionInt w) (files w)
          (project_connections w) (layer_connections w) (trace w) = w.
Proof. destruct w; reflexivity. Qed.

Lemma wiring_cons layer ls :
  wiring (layer :: ls) =
    (if is_saved_layer layer then signals_of layer else []) ++ wiring ls.
Proof. unfold wiring. cbn. destruct (is_saved_layer layer); reflexivity. Qed.

Lemma connect_layers_from_spec ls w :
  connect_layers_from ls w =
    (mkWorld (has_modified_layers w || existsb is_saved_layer ls)
             (attached w) (project w) (versionInt w) (files w)
             (project_connections w) (layer_connections w ++ wiring ls) (trace w),
     Returned).
Proof.
  revert w. induction ls as [|layer ls IH]; intros w.
  - cbn. rewrite orb_false_r, app_nil_r, world_eta. reflexivity.
  - cbn [connect_layers_from existsb]. rewrite wiring_cons. unfold connect_layer.
    destruct (is_saved_layer layer); rewrite IH; cbn.
    + rewrite orb_true_r, <- app_assoc. reflexivity.
    + reflexivity.
Qed.

Lemma wiring_connects layer sg ls :
  In layer ls -> is_saved_layer layer = true -> (layer_id layer, sg) ∈ wiring ls.
Proof.
  intros Hin He. unfold wiring. apply list_elem_of_In, in_concat.
  exists (signals_of layer). split.
  - apply in_map, List.filter_In. split; assumption.
  - apply in_map. destruct sg; cbn; tauto.
Qed.

Lemma init_unfold w :
  init w =
    (mkWorld (isDirty (project w)) true (project w) (versionInt w) (files w)
             (project_connections w ++ subscriptions)
             (layer_connections w ++ wiring (mapLayers (project w)))
             (trace w),
     Returned).
Proof.
  unfold init, attach, connect_layers. rewrite connect_layers_from_spec. cbn.
  rewrite <- app_assoc. reflexivity.
Qed.

(** X1.  The constructor returns.  The flag is the dirty status of the
    project, also when [connect_layer] set it for an eligible layer while
    attaching; the object is attached; the four project signals are
    connected, after the connections there were; every eligible layer of
    the project has its six signals connected, in the order of the layers;
    the project, the files and the trace are as before. *)
Theorem init_state w :
  (init w).2 = Returned /\
  has_modified_layers (init w).1 = isDirty (project w) /\
  attached (init w).1 = true /\
  project_connections (init w).1 = project_connections w ++ subscriptions /\
  layer_connections (init w).1 = layer_connections w ++ wiring (mapLayers (project w)) /\
  project (init w).1 = project w /\
  files (init w).1 = files w /\
  trace (init w).1 = trace w.
Proof. rewrite init_unfold. repeat split. Qed.

(** ** What a load request leaves alone *)

Lemma load_data_layer_connections w :
  layer_connections (load_data w).1 = layer_connections w.
Proof.
  unfold load_data. destruct (QFile_exists _ _); [|reflexivity].
  destruct (memory_layers _); [reflexivity|].
  destruct (read_layers _ _ _) as [ls' [e|]]; reflexivity.
Qed.

(** X2.  A load request changes the flag, the layers and the trace only:
    the files, the connections, the file name, the attachments and the dirty
    status of the project are as before, and the writer is not invoked. *)
Theorem load_data_frame w :
  files (load_data w).1 = files w /\
  project_connections (load_data w).1 = project_connections w /\
  layer_connections (load_data w).1 = layer_connections w /\
  fileName (project (load_data w).1) = fileName (project w) /\
  attachedFiles (project (load_data w).1) = attachedFiles (project w) /\
  isDirty (project (load_data w).1) = isDirty (project w) /\
  writes (load_data w).1 = writes w.
Proof.
  unfold load_data.
  destruct (QFile_exists _ _); [|repeat split].
  destruct (memory_layers _) as [|l ls];
    [|destruct (read_layers _ _ _) as [ls' [e|]]];
    repeat split;
    unfold writes;
    cbn [trace fst set_has_modified_layers emit_effect set_project log];
    rewrite ?List.filter_app, ?length_app; cbn; lia.
Qed.

(** ** Signals after construction *)

Lemma slots_of_subscriptions sg :
  slots_of sg subscriptions =
    match sg with
    | layerWasAdded => [slot_connect_layer]
    | layerWillBeRemoved => []
    | readProject => [slot_load_data]
    | writeProject => [slot_save_data]
    | cleared => [slot_on_cleared]
    end.
Proof. destruct sg; reflexivity. Qed.

(** X3.  Every eligible layer that is in the project when the plugin is
    constructed is connected: after the project was read (state Clean),
    each of its six commit notifications sets the flag. *)
Theorem init_wires_project_layers layer sg w :
  In layer (mapLayers (project w)) ->
  is_saved_layer layer = true ->
  (layer_id layer, sg) ∈ layer_connections (init w).1 /\
  has_modified_layers (load_data (init w).1).1 = false /\
  has_modified_layers (emit_layer (layer_id layer) sg (load_data (init w).1).1).1 = true.
Proof.
  intros Hin He.
  assert (Hc : (layer_id layer, sg) ∈ layer_connections (init w).1).
  { rewrite init_unfold. cbn [fst layer_connections].
    apply elem_of_app. right. apply wiring_connects; assumption. }
  split; [exact Hc|]. split; [reflexivity|].
  rewrite emit_layer_connected; [reflexivity|].
  rewrite load_data_layer_connections. exact Hc.
Qed.

(** An added layer is handed to [connect_layer], once. *)
Lemma host_add_layer_routed layer w :
  project_connections w = subscriptions ->
  host_add_layer layer w =
    ((connect_layer layer
        (set_project (set_mapLayers (mapLayers (project w) ++ [layer]) (project w)) w)).1,
     []).
Proof.
  intros Hc. unfold host_add_layer, emit_project.
  cbn [project_connections set_project]. rewrite Hc, slots_of_subscriptions. cbn.
  match goal with |- context [connect_layer layer ?w0] =>
    pose proof (connect_layer_returns layer w0) as Hr;
    destruct (connect_layer layer w0) as [w1 c] end.
  cbn in Hr. subst c. reflexivity.
Qed.

(** X4.  With the connections the constructor makes, each project event
    runs its handler exactly once: a read runs [load_data] and nothing
    reaches the host; a write runs [save_data], and an exception of
    [save_data] reaches the host; an added layer is passed to
    [connect_layer]. *)
Theorem project_signals_routed w :
  project_connections w = subscriptions ->
  host_read_project w = ((load_data w).1, []) /\
  host_write_project w =
    ((save_data w).1,
     match (save_data w).2 with Returned => [] | Raised e => [e] end) /\
  (forall layer,
     host_add_layer layer w =
       ((connect_layer layer
           (set_project (set_mapLayers (mapLayers (project w) ++ [layer]) (project w)) w)).1,
        [])).
Proof.
  intros Hc. unfold host_read_project, host_write_project, host_add_layer, emit_project.
  cbn [project_connections set_project]. rewrite Hc, !slots_of_subscriptions.
  split; [|split].
  - reflexivity.
  - cbn. destruct (save_data w) as [w1 [|e]]; reflexivity.
  - intros layer. rewrite <- (host_add_layer_routed layer w Hc).
    unfold host_add_layer, emit_project.
    cbn [project_connections set_project]. rewrite Hc, slots_of_subscriptions.
    reflexivity.
Qed.

(** X5.  When the project is cleared the state becomes Clean, whatever it
    was; nothing is logged, read, written or reported, no file changes, and
    no exception reaches the host. *)
Theorem cleared_resets_flag w :
  project_connections w = subscriptions ->
  has_modified_layers (host_clear w).1 = false /\
  (host_clear w).2 = [] /\
  trace (host_clear w).1 = trace w /\
  files (host_clear w).1 = files w /\
  layer_connections (host_clear w).1 = layer_connections w.
Proof.
  intros Hc. unfold host_clear, emit_project.
  cbn [project_connections set_project]. rewrite Hc, slots_of_subscriptions.
  repeat split.
Qed.

Lemma filter_none {A} (f : A -> bool) l :
  (forall x, In x l -> f x = false) -> List.filter f l = [].
Proof.
  induction l as [|x l IH]; intros Hf; [reflexivity|]. cbn.
  rewrite (Hf x (or_introl eq_refl)). apply IH. intros y Hy. apply Hf. right. exact Hy.
Qed.

(** A commit notification of a layer that is not connected runs no handler. *)
Lemma emit_layer_unconnected id sg w :
  (id, sg) ∉ layer_connections w -> emit_layer id sg w = (w, []).
Proof.
  intros Hn. unfold emit_layer, layer_slots_of. rewrite filter_none; [reflexivity|].
  intros c Hin. apply bool_decide_eq_false. intros ->.
  apply Hn, list_elem_of_In, Hin.
Qed.

(** X6.  A layer that is not eligible when it is added to the project is
    not connected and does not set the flag, and its commit notifications
    are ignored from then on: the world stays exactly as it is. *)
Theorem ineligible_layer_ignored layer w :
  project_connections w = subscriptions ->
  is_saved_layer layer = false ->
  (forall sg, (layer_id layer, sg) ∉ layer_connections w) ->
  has_modified_layers (host_add_layer layer w).1 = has_modified_layers w /\
  layer_connections (host_add_layer layer w).1 = layer_connections w /\
  (forall sg,
     emit_layer (layer_id layer) sg (host_add_layer layer w).1
       = ((host_add_layer layer w).1, [])).
Proof.
  intros Hc He Hn.
  rewrite (host_add_layer_routed layer w Hc). unfold connect_layer. rewrite He. cbn [fst].
  split; [reflexivity|]. split; [reflexivity|].
  intros sg. apply emit_layer_unconnected. apply Hn.
Qed.

(** ** Connecting and disconnecting *)

Lemma remove_first_perm {A} `{EqDecision A} (x : A) l :
  x ∈ l -> x :: remove_first x l ≡ₚ l.
Proof.
  induction l as [|y l IH]; intros Hin; [inversion Hin|].
  cbn. destruct (decide (y = x)) as [->|Hne]; [reflexivity|].
  apply elem_of_cons in Hin as [->|Hin]; [congruence|].
  rewrite Permutation_swap. f_equiv. apply IH, Hin.
Qed.

Lemma remove_first_head {A} `{EqDecision A} (x : A) l : remove_first x (x :: l) = l.
Proof. cbn. rewrite decide_True; reflexivity. Qed.

Lemma remove_first_absent {A} `{EqDecision A} (x y : A) l :
  x ∉ l -> x ∉ remove_first y l.
Proof.
  induction l as [|z l IH]; intros Hn; [exact Hn|].
  cbn. apply not_elem_of_cons in Hn as [Hz Hl].
  destruct (decide (z = y)); [exact Hl|].
  apply not_elem_of_cons. split; [exact Hz | apply IH, Hl].
Qed.

Lemma remove_first_fresh {A} `{EqDecision A} (x : A) l r :
  x ∉ l -> remove_first x (l ++ x :: r) = l ++ r.
Proof.
  induction l as [|z l IH]; intros Hn; cbn.
  - rewrite decide_True; reflexivity.
  - apply not_elem_of_cons in Hn as [Hz Hl].
    rewrite decide_False by congruence. f_equal. apply IH, Hl.
Qed.

Lemma disconnect_signals_perm id sigs cs rest :
  cs ≡ₚ map (fun s => (id, s)) sigs ++ rest ->
  exists cs', disconnect_signals id sigs cs = (cs', Returned) /\ cs' ≡ₚ rest.
Proof.
  revert cs. induction sigs as [|s sigs IH]; intros cs Hp; cbn.
  - exists cs. split; [reflexivity | exact Hp].
  - assert (Hin : (id, s) ∈ cs) by (rewrite Hp; cbn; left).
    rewrite decide_True by exact Hin. apply IH.
    apply (Permutation_cons_inv (a := (id, s))).
    rewrite (remove_first_perm _ _ Hin). exact Hp.
Qed.

Lemma disconnect_signals_missing id sg sigs cs :
  In sg sigs -> (id, sg) ∉ cs ->
  exists cs', disconnect_signals id sigs cs = (cs', Raised "TypeError: disconnect() failed").
Proof.
  revert cs. induction sigs as [|s sigs IH]; intros cs Hin Hn; [destruct Hin|].
  cbn. destruct (decide ((id, s) ∈ cs)) as [Hs|Hs]; [|eexists; reflexivity].
  destruct Hin as [->|Hin]; [contradiction|].
  apply IH; [exact Hin|]. apply remove_first_absent, Hn.
Qed.

Lemma disconnect_layer_perm layer w rest :
  layer_connections w ≡ₚ (if is_saved_layer layer then signals_of layer else []) ++ rest ->
  exists cs,
    disconnect_layer layer w =
      (mkWorld (has_modified_layers w || is_saved_layer layer)
               (attached w) (project w) (versionInt w) (files w)
               (project_connections w) cs (trace w),
       Returned) /\
    cs ≡ₚ rest.
Proof.
  intros Hp. unfold disconnect_layer. destruct (is_saved_layer layer).
  - destruct (disconnect_signals_perm _ _ _ _ Hp) as (cs & Hd & Hcs).
    rewrite Hd. exists cs. split; [|exact Hcs]. cbn. rewrite orb_true_r. reflexivity.
  - exists (layer_connections w). split; [|exact Hp].
    rewrite orb_false_r, world_eta. reflexivity.
Qed.

Lemma disconnect_layers_from_perm ls w rest :
  layer_connections w ≡ₚ wiring ls ++ rest ->
  exists cs,
    disconnect_layers_from ls w =
      (mkWorld (has_modified_layers w || existsb is_saved_layer ls)
               (attached w) (project w) (versionInt w) (files w)
               (project_connections w) cs (trace w),
       Returned) /\
    cs ≡ₚ rest.
Proof.
  revert w. induction ls as [|layer ls IH]; intros w Hp.
  - exists (layer_connections w). split; [|exact Hp].
    cbn. rewrite orb_false_r, world_eta. reflexivity.
  - rewrite wiring_cons, <- app_assoc in Hp.
    destruct (disconnect_layer_perm layer w _ Hp) as (cs1 & Hd & Hcs1).
    cbn [disconnect_layers_from existsb]. rewrite Hd.
    match goal with |- context [disconnect_layers_from ls ?w1] =>
      destruct (IH w1 Hcs1) as (cs & Hds & Hcs) end.
    rewrite Hds. exists cs. split; [|exact Hcs]. cbn. rewrite orb_assoc. reflexivity.
Qed.

(** X7.  [disconnect_layer] undoes [connect_layer]: on an eligible layer
    that was just connected it returns, the connections are the ones there
    were before (up to order), and nothing but the flag, which is set, has
    changed. *)
Theorem connect_disconnect_round_trip layer w :
  is_saved_layer layer = true ->
  exists cs,
    disconnect_layer layer (connect_layer layer w).1 =
      (mkWorld true (attached w) (project w) (versionInt w) (files w)
               (project_connections w) cs (trace w),
       Returned) /\
    cs ≡ₚ layer_connections w.
Proof.
  intros He.
  assert (Hc : connect_layer layer w =
                 (mkWorld true (attached w) (project w) (versionInt w) (files w)
                          (project_connections w)
                          (layer_connections w ++ signals_of layer) (trace w),
                  Returned)).
  { unfold connect_layer. rewrite He. reflexivity. }
  rewrite Hc. cbn [fst].
  match goal with |- context [disconnect_layer layer ?w1] =>
    destruct (disconnect_layer_perm layer w1 (layer_connections w)) as (cs & Hd & Hcs) end.
  { cbn [layer_connections]. rewrite He. apply Permutation_app_comm. }
  exists cs. split; [exact Hd | exact Hcs].
Qed.

(** X8.  [disconnect_layer] on an eligible layer one of whose six signals
    is not connected raises [TypeError]; the flag is not set then. *)
Theorem disconnect_unconnected_raises layer sg w :
  is_saved_layer layer = true ->
  (layer_id layer, sg) ∉ layer_connections w ->
  (disconnect_layer layer w).2 = Raised "TypeError: disconnect() failed" /\
  has_modified_layers (disconnect_layer layer w).1 = has_modified_layers w.
Proof.
  intros He Hn. unfold disconnect_layer. rewrite He.
  destruct (disconnect_signals_missing (layer_id layer) sg layer_signals
              (layer_connections w)) as (cs & Hd); [destruct sg; cbn; tauto | exact Hn |].
  rewrite Hd. split; reflexivity.
Qed.

(** ** Attaching and detaching *)

Lemma attach_spec w :
  attach w =
    (mkWorld (has_modified_layers w || existsb is_saved_layer (mapLayers (project w)))
             true (project w) (versionInt w) (files w)
             (project_connections w ++ [(layerWasAdded, slot_connect_layer)])
             (layer_connections w ++ wiring (mapLayers (project w)))
             (trace w),
     Returned).
Proof. unfold attach, connect_layers. rewrite connect_layers_from_spec. reflexivity. Qed.

(** X9.  [detach] undoes [attach]: it returns, and the connections on the
    project and on the layers are the ones there were before attaching (up
    to order).  The object still counts as attached afterwards. *)
Theorem attach_detach_round_trip w :
  exists w2,
    detach (attach w).1 = (w2, Returned) /\
    project_connections w2 ≡ₚ project_connections w /\
    layer_connections w2 ≡ₚ layer_connections w /\
    attached w2 = true /\
    project w2 = project w /\ files w2 = files w /\ trace w2 = trace w.
Proof.
  rewrite attach_spec. cbn [fst]. unfold detach, disconnect_project.
  cbn [attached negb project_connections].
  assert (Hin : (layerWasAdded, slot_connect_layer)
                  ∈ project_connections w ++ [(layerWasAdded, slot_connect_layer)]).
  { apply elem_of_app. right. left. }
  rewrite decide_True by exact Hin. unfold disconnect_layers.
  cbn [project set_project_connections].
  match goal with |- context [disconnect_layers_from ?ls ?w1] =>
    destruct (disconnect_layers_from_perm ls w1 (layer_connections w)) as (cs & Hd & Hcs) end.
  { cbn [layer_connections]. apply Permutation_app_comm. }
  rewrite Hd. eexists. split; [reflexivity|]. cbn.
  split; [|split; [exact Hcs | repeat split]].
  apply (Permutation_cons_inv (a := (layerWasAdded, slot_connect_layer))).
  rewrite (remove_first_perm _ _ Hin). rewrite Permutation_app_comm. reflexivity.
Qed.

Lemma detach_init w :
  (layerWasAdded, slot_connect_layer) ∉ project_connections w ->
  exists cs,
    detach (init w).1 =
      (mkWorld (isDirty (project w) || existsb is_saved_layer (mapLayers (project w)))
               true (project w) (versionInt w) (files w)
               (project_connections w ++
                  [ (readProject, slot_load_data); (writeProject, slot_save_data);
                    (cleared, slot_on_cleared) ])
               cs (trace w),
       Returned) /\
    cs ≡ₚ layer_connections w.
Proof.
  intros Hn. rewrite init_unfold. cbn [fst]. unfold detach, disconnect_project.
  cbn [attached negb project_connections].
  rewrite decide_True by (apply elem_of_app; right; left).
  unfold subscriptions. rewrite (remove_first_fresh _ _ _ Hn).
  unfold disconnect_layers. cbn [project set_project_connections].
  match goal with |- context [disconnect_layers_from ?ls ?w1] =>
    destruct (disconnect_layers_from_perm ls w1 (layer_connections w)) as (cs & Hd & Hcs) end.
  { cbn [layer_connections]. apply Permutation_app_comm. }
  rewrite Hd. exists cs. split; [reflexivity | exact Hcs].
Qed.

(** X10.  [detach] does not reset [attached].  After the constructor, a
    first [detach] returns and a second one raises [TypeError], because the
    slot it disconnects from [layerWasAdded] is no longer connected; the
    second call changes nothing. *)
Theorem detach_twice_raises w :
  (layerWasAdded, slot_connect_layer) ∉ project_connections w ->
  exists w1,
    detach (init w).1 = (w1, Returned) /\
    attached w1 = true /\
    detach w1 = (w1, Raised "TypeError: disconnect() failed").
Proof.
  intros Hn. destruct (detach_init w Hn) as (cs & Hd & _).
  eexists. split; [exact Hd|]. split; [reflexivity|].
  unfold detach, disconnect_project. cbn [attached negb project_connections].
  rewrite decide_False; [reflexivity|].
  intros Hin. apply elem_of_app in Hin as [Hin|Hin]; [exact (Hn Hin)|].
  repeat (apply elem_of_cons in Hin as [Hin|Hin]; [discriminate Hin|]).
  inversion Hin.
Qed.

Lemma disconnect_layer_flag layer w w1 :
  disconnect_layer layer w = (w1, Returned) ->
  has_modified_layers w1 = has_modified_layers w || is_saved_layer layer.
Proof.
  unfold disconnect_layer. destruct (is_saved_layer layer).
  - destruct (disconnect_signals _ _ _) as [cs [|e]]; intros [= <-].
    cbn. rewrite orb_true_r. reflexivity.
  - intros [= <-]. rewrite orb_false_r. reflexivity.
Qed.

Lemma disconnect_layers_from_flag ls w w1 :
  disconnect_layers_from ls w = (w1, Returned) ->
  has_modified_layers w1 = has_modified_layers w || existsb is_saved_layer ls.
Proof.
  revert w. induction ls as [|layer ls IH]; intros w; cbn [disconnect_layers_from existsb].
  - intros [= <-]. rewrite orb_false_r. reflexivity.
  - destruct (disconnect_layer layer w) as [w0 [|e]] eqn:Hd; [|intros [=]].
    intros Hds. rewrite (IH _ Hds), (disconnect_layer_flag _ _ _ Hd), orb_assoc.
    reflexivity.
Qed.

(** X11.  A [detach] that returns, on an attached object whose project
    holds an eligible layer, leaves the flag set: detaching marks the state
    Dirty. *)
Theorem detach_sets_flag layer w w1 :
  attached w = true ->
  detach w = (w1, Returned) ->
  In layer (mapLayers (project w)) ->
  is_saved_layer layer = true ->
  has_modified_layers w1 = true.
Proof.
  intros Ha Hd Hin He. unfold detach, disconnect_project in Hd. rewrite Ha in Hd.
  cbn [negb] in Hd.
  destruct (decide (_ ∈ project_connections w)); [|discriminate Hd].
  unfold disconnect_layers in Hd. apply disconnect_layers_from_flag in Hd.
  rewrite Hd. cbn [project set_project_connections].
  replace (existsb is_saved_layer (mapLayers (project w))) with true;
    [apply orb_true_r|].
  symmetry. apply existsb_exists. exists layer. split; assumption.
Qed.

(** ** Unloading *)

(** X12.  [unload] after the constructor, on an object with a menu and no
    earlier connections: it returns; the menu is out of the plugin menu;
    the setting has its backup value; every layer signal is disconnected,
    and so are [layerWasAdded], [readProject] and [writeProject], so that a
    later project read or write runs no handler.  The slot on [cleared] is
    still connected. *)
Theorem unload_leaves_cleared_connected g m w :
  menu g = Some m ->
  project_connections w = [] ->
  layer_connections w = [] ->
  exists g1 w1,
    unload g (init w).1 = (g1, w1, Returned) /\
    project_connections w1 = [(cleared, slot_on_cleared)] /\
    layer_connections w1 = [] /\
    (m ∉ pluginMenu g1) /\
    ask_to_save_memory_layers g1 = backup_ask_to_save_memory_layers g /\
    trace w1 = (trace w ++ [Log "MemoryLayerSaver unloaded"]) /\
    host_read_project w1 = (w1, []) /\
    host_write_project w1 = (w1, []).
Proof.
  intros Hm Hpc Hlc.
  destruct (detach_init w) as (cs & Hd & Hcs); [rewrite Hpc; apply not_elem_of_nil|].
  rewrite Hlc in Hcs. apply Permutation_nil_r in Hcs. subst cs.
  rewrite Hpc in Hd. cbn [app] in Hd.
  unfold unload. rewrite Hm, Hd. unfold disconnect_project.
  cbn [project_connections].
  rewrite decide_True by left. rewrite remove_first_head.
  cbn [set_project_connections project_connections].
  rewrite decide_True by left. rewrite remove_first_head.
  eexists _, _. split; [reflexivity|].
  cbn. repeat split.
  intros Hin. apply list_elem_of_In, List.filter_In in Hin as [_ Hne].
  rewrite String.eqb_refl in Hne. discriminate Hne.
Qed.

(** ** A save request that finds the state Dirty *)

Lemma save_dirty_writer_outcome w :
  has_modified_layers w = true ->
  memory_layers w <> [] ->
  writes (save_data w).1 = S (writes w) /\
  (save_data w).2 =
    match (write_layers (save_target w) (memory_layers w) (files (before_write w))).2 with
    | None => Returned | Some e => Raised e
    end /\
  has_modified_layers (save_data w).1 =
    match (write_layers (save_target w) (memory_layers w) (files (before_write w))).2 with
    | None => false | Some _ => true
    end.
Proof.
  intros Hd Hl. rewrite (save_data_dirty w Hd), before_write_layers.
  fold (save_target w).
  destruct (memory_layers w) as [|l ls] eqn:Hm; [congruence|]. cbv zeta.
  assert (Hw : forall fs,
             writes (emit_effect (WriteLayers (save_target w) (l :: ls))
                                 (set_files fs (before_write w))) = S (writes w)).
  { intros fs. rewrite writes_emit_effect, writes_set_files, before_write_writes.
    cbn [is_write]. lia. }
  destruct (write_layers _ _ _) as [fs [e|]]; cbn [fst snd].
  - split; [apply Hw|]. split; [reflexivity|].
    cbn [has_modified_layers emit_effect set_files]. rewrite before_write_flag. exact Hd.
  - split; [rewrite writes_set_flag; apply Hw|]. split; reflexivity.
Qed.

(** X13.  A save request that finds the state Dirty while some layer is
    eligible invokes the writer exactly once, as its last effect, on the
    computed file name and over exactly the eligible layers.  The files are
    as the writer leaves them.  When the writer returns the request returns
    with the state Clean; when the writer raises, the same exception leaves
    the request and the state stays Dirty. *)
Theorem save_dirty_invokes_writer w :
  has_modified_layers w = true ->
  memory_layers w <> [] ->
  let out := write_layers (save_target w) (memory_layers w) (files (before_write w)) in
  trace (save_data w).1 =
    trace (before_write w) ++ [WriteLayers (save_target w) (memory_layers w)] /\
  writes (save_data w).1 = S (writes w) /\
  files (save_data w).1 = out.1 /\
  (save_data w).2 = match out.2 with None => Returned | Some e => Raised e end /\
  has_modified_layers (save_data w).1 = match out.2 with None => false | Some _ => true end.
Proof.
  intros Hd Hl. cbv zeta. rewrite (save_data_dirty w Hd), before_write_layers.
  fold (save_target w).
  destruct (memory_layers w) as [|l ls] eqn:Hm; [congruence|]. cbv zeta.
  assert (Hw : forall fs,
             writes (emit_effect (WriteLayers (save_target w) (l :: ls))
                                 (set_files fs (before_write w))) = S (writes w)).
  { intros fs. rewrite writes_emit_effect, writes_set_files, before_write_writes.
    cbn [is_write]. lia. }
  destruct (write_layers _ _ _) as [fs [e|]]; cbn [fst snd].
  - split; [reflexivity|]. split; [apply Hw|]. split; [reflexivity|].
    split; [reflexivity|].
    cbn [has_modified_layers emit_effect set_files]. rewrite before_write_flag. exact Hd.
  - split; [reflexivity|]. split; [rewrite writes_set_flag; apply Hw|].
    repeat split.
Qed.

Lemma emit_layer_connected_frame id sg w :
  (id, sg) ∈ layer_connections w ->
  has_modified_layers (emit_layer id sg w).1 = true /\
  mapLayers (project (emit_layer id sg w).1) = mapLayers (project w) /\
  trace (emit_layer id sg w).1 = trace w.
Proof. intros Hin. rewrite (emit_layer_connected id sg w Hin). repeat split. Qed.

(** X14.  Edit, save, save.  After a commit notification of a connected
    eligible layer of the project, a save request whose writer returns
    invokes the writer exactly once and leaves the state Clean, and the save
    request after it changes nothing. *)
Theorem edit_save_save layer sg w :
  (layer_id layer, sg) ∈ layer_connections w ->
  In layer (mapLayers (project w)) ->
  is_saved_layer layer = true ->
  let w1 := (emit_layer (layer_id layer) sg w).1 in
  (write_layers (save_target w1) (memory_layers w1) (files (before_write w1))).2 = None ->
  (save_data w1).2 = Returned /\
  writes (save_data w1).1 = S (writes w) /\
  has_modified_layers (save_data w1).1 = false /\
  save_data (save_data w1).1 = ((save_data w1).1, Returned).
Proof.
  intros Hc Hin He w1 Hw.
  destruct (emit_layer_connected_frame _ _ _ Hc) as (Hd & Hm & Ht). fold w1 in Hd, Hm, Ht.
  assert (Hl : memory_layers w1 <> []).
  { unfold memory_layers. rewrite Hm. intros Hnil.
    assert (Hf : In layer (List.filter is_saved_layer (mapLayers (project w))))
      by (apply List.filter_In; split; assumption).
    rewrite Hnil in Hf. exact Hf. }
  destruct (save_dirty_writer_outcome w1 Hd Hl) as (Hws & Hr & Hf).
  rewrite Hw in Hr, Hf.
  split; [exact Hr|]. split; [|split; [exact Hf|]].
  - rewrite Hws. unfold writes. rewrite Ht. reflexivity.
  - apply save_data_clean, Hf.
Qed.

(** ** Attachments *)

Lemma find_snoc {A} (p : A -> bool) l x :
  List.find p (l ++ [x]) =
    match List.find p l with
    | Some a => Some a
    | None => if p x then Some x else None
    end.
Proof.
  induction l as [|y l IH]; cbn; [reflexivity|].
  destruct (p y); [reflexivity | exact IH].
Qed.

(** X15.  On a host that has attachments, every save request that finds
    the state Dirty registers one more attachment, whether or not a layer is
    eligible and whether or not the writer returns; no other save request
    changes the attachments. *)
Theorem save_registers_attachment w :
  attachedFiles (project (save_data w).1) =
    attachedFiles (project w) ++
    (if has_modified_layers w && (versionInt w >=? 32200)%Z
     then [attachment_path "layers.mldata" (project w) (files w)]
     else []).
Proof.
  destruct (has_modified_layers w) eqn:Hd.
  - rewrite (save_data_dirty w Hd). cbn [andb].
    assert (Hb : attachedFiles (project (before_write w)) =
                 attachedFiles (project w) ++
                 (if (versionInt w >=? 32200)%Z
                  then [attachment_path "layers.mldata" (project w) (files w)]
                  else [])).
    { unfold before_write. destruct (versionInt w >=? 32200)%Z; cbn;
        [reflexivity | rewrite app_nil_r; reflexivity]. }
    destruct (memory_layers _); [exact Hb|].
    cbv zeta. destruct (write_layers _ _ _).2; exact Hb.
  - rewrite (save_data_clean w Hd). cbn. rewrite app_nil_r. reflexivity.
Qed.

(** X16.  On a host that has attachments, for a project with a file name,
    the file a save request writes to is an attachment whose name ends in
    [layers.mldata]: the first such attachment the project already had, and
    the one just created only when it had none (the host names the new
    attachment after the template). *)
Theorem save_target_is_attachment w :
  fileName (project w) <> EmptyString ->
  (32200 <= versionInt w)%Z ->
  endswith (attachment_path "layers.mldata" (project w) (files w)) "layers.mldata" = true ->
  endswith (save_target w) "layers.mldata" = true /\
  save_target w =
    match List.find (fun a => endswith a "layers.mldata") (attachedFiles (project w)) with
    | Some a => a
    | None => attachment_path "layers.mldata" (project w) (files w)
    end.
Proof.
  intros Hn Hv Hp.
  assert (Ht : save_target w =
               match List.find (fun a => endswith a "layers.mldata")
                               (attachedFiles (project w)) with
               | Some a => a
               | None => attachment_path "layers.mldata" (project w) (files w)
               end).
  { unfold save_target. rewrite Z.geb_leb, (proj2 (Z.leb_le _ _) Hv).
    unfold memory_layer_file.
    cbn [createAttachedFile emit_effect set_files set_project project versionInt
         fileName attachedFiles set_attachedFiles].
    rewrite (file_name_given _ Hn), Z.geb_leb, (proj2 (Z.leb_le _ _) Hv).
    rewrite find_snoc, Hp. destruct (List.find _ _); reflexivity. }
  split; [|exact Ht]. rewrite Ht.
  destruct (List.find _ _) as [a|] eqn:Hf; [|exact Hp].
  apply List.find_some in Hf. apply Hf.
Qed.

(** X17.  The archive location is the empty string exactly when the
    project has no file name. *)
Theorem memory_layer_file_empty_iff w :
  memory_layer_file w = EmptyString <-> fileName (project w) = EmptyString.
Proof.
  unfold memory_layer_file. split.
  - destruct (String.eqb_spec (fileName (project w)) EmptyString) as [He|Hne];
      [intros _; exact He|].
    assert (Hs : fileName (project w) +:+ ".mldata" <> EmptyString)
      by (destruct (fileName (project w)); discriminate).
    destruct (versionInt w >=? 32200)%Z; [|intros E; destruct (Hs E)].
    destruct (List.find _ _) as [a|] eqn:Hf; [|intros E; destruct (Hs E)].
    apply List.find_some in Hf as [_ Ha]. intros ->. discriminate Ha.
  - intros ->. reflexivity.
Qed.

(** ** Errors of the reader *)

(** X18.  When the reader raises, the load request shows one message box,
    titled [Error reloading memory layers], whose text is the text of the
    exception; it is the last effect of the request.  In every other case
    (no archive, no eligible layer, or a reader that returns) no message
    box is shown. *)
Theorem load_reports_reader_error w :
  (forall e,
     QFile_exists (files w) (memory_layer_file w) = true ->
     memory_layers w <> [] ->
     (read_layers (memory_layer_file w) (files w) (memory_layers w)).2 = Some e ->
     trace (load_data w).1 =
       trace w ++
       [ Log ("Loading memory layers from " +:+ memory_layer_file w);
         ReadLayers (memory_layer_file w) (memory_layers w);
         MessageBox "Error reloading memory layers" e ]) /\
  (QFile_exists (files w) (memory_layer_file w) = false \/
   memory_layers w = [] \/
   (read_layers (memory_layer_file w) (files w) (memory_layers w)).2 = None ->
   messages (load_data w).1 = messages w).
Proof.
  split.
  - intros e Hx Hl Hr. rewrite (load_data_trace w Hx), Hr.
    destruct (memory_layers w); [congruence | reflexivity].
  - intros Hcase.
    destruct (QFile_exists (files w) (memory_layer_file w)) eqn:Hx.
    + unfold messages. rewrite (load_data_trace w Hx).
      rewrite List.filter_app, length_app.
      destruct Hcase as [Hc | [Hc | Hc]]; [discriminate Hc | rewrite Hc; cbn; lia |].
      rewrite Hc. destruct (memory_layers w); cbn; lia.
    + rewrite (load_data_missing w Hx). reflexivity.
Qed.

End Lifecycle.

(** * The life of the plugin object on concrete worlds *)

(** The memory layer of the project is connected by the constructor. *)
Lemma init_wires_project_layers_witness :
  let w := host town 31600 sidecar in
  ("mem_points", committedFeaturesRemoved) ∈ layer_connections (@init memory_only w).1 /\
  has_modified_layers (@load_data memory_only reader_ok (@init memory_only w).1).1 = false /\
  has_modified_layers
    (@emit_layer memory_only reader_ok writer_ok archive_dir "mem_points"
       committedFeaturesRemoved (@load_data memory_only reader_ok (@init memory_only w).1).1).1
    = true.
Proof.
  cbv zeta.
  apply (@init_wires_project_layers memory_only reader_ok writer_ok archive_dir
           points committedFeaturesRemoved (host town 31600 sidecar)).
  - left. reflexivity.
  - reflexivity.
Defined.

(** A project read on the constructed plugin runs [load_data]. *)
Lemma project_signals_routed_witness :
  let w := started 31600 sidecar in
  @host_read_project memory_only reader_ok writer_ok archive_dir w =
    ((@load_data memory_only reader_ok w).1, []).
Proof.
  cbv zeta.
  apply (@project_signals_routed memory_only reader_ok writer_ok archive_dir
           (started 31600 sidecar)).
  reflexivity.
Defined.

(** Clearing the project after an edit. *)
Lemma cleared_resets_flag_witness :
  let clear := @host_clear memory_only reader_ok writer_ok archive_dir in
  let w := edited 31600 sidecar in
  has_modified_layers w = true /\ has_modified_layers (clear w).1 = false.
Proof.
  cbv zeta. split; [reflexivity|].
  apply (@cleared_resets_flag memory_only reader_ok writer_ok archive_dir
           (edited 31600 sidecar)).
  reflexivity.
Defined.

(** A file-backed layer added to the open project. *)
Lemma ineligible_layer_ignored_witness :
  let add := @host_add_layer memory_only reader_ok writer_ok archive_dir in
  let w := opened 31600 sidecar in
  has_modified_layers (add rivers w).1 = false /\
  @emit_layer memory_only reader_ok writer_ok archive_dir
     "ogr_rivers" committedFeaturesAdded (add rivers w).1 = ((add rivers w).1, []).
Proof.
  cbv zeta.
  destruct (@ineligible_layer_ignored memory_only reader_ok writer_ok archive_dir
              rivers (opened 31600 sidecar)) as (Hf & _ & He).
  - reflexivity.
  - reflexivity.
  - intros sg Hin. apply list_elem_of_In in Hin. vm_compute in Hin.
    intuition congruence.
  - split; [exact Hf | apply He].
Defined.

(** Connecting and disconnecting the memory layer. *)
Lemma connect_disconnect_round_trip_witness :
  let w := host town 31600 sidecar in
  exists cs,
    @disconnect_layer memory_only points (@connect_layer memory_only points w).1 =
      (mkWorld true false town 31600 sidecar [] cs [], Returned) /\
    cs ≡ₚ [].
Proof.
  cbv zeta.
  apply (@connect_disconnect_round_trip memory_only points (host town 31600 sidecar)).
  reflexivity.
Defined.

(** Disconnecting the memory layer before it was connected. *)
Lemma disconnect_unconnected_raises_witness :
  let w := host town 31600 sidecar in
  (@disconnect_layer memory_only points w).2 = Raised "TypeError: disconnect() failed" /\
  has_modified_layers (@disconnect_layer memory_only points w).1 = false.
Proof.
  cbv zeta.
  apply (@disconnect_unconnected_raises memory_only points committedFeaturesAdded
           (host town 31600 sidecar)).
  - reflexivity.
  - apply not_elem_of_nil.
Defined.

(** Detaching twice. *)
Lemma detach_twice_raises_witness :
  exists w1,
    @detach memory_only (@init memory_only (host town 31600 sidecar)).1 = (w1, Returned) /\
    attached w1 = true /\
    @detach memory_only w1 = (w1, Raised "TypeError: disconnect() failed").
Proof.
  apply (@detach_twice_raises memory_only (host town 31600 sidecar)).
  apply not_elem_of_nil.
Defined.

(** Detaching from a project that holds the memory layer. *)
Lemma detach_sets_flag_witness :
  let w := started 31600 sidecar in
  has_modified_layers w = false /\
  has_modified_layers (@detach memory_only w).1 = true.
Proof.
  cbv zeta. split; [reflexivity|].
  apply (@detach_sets_flag memory_only points (started 31600 sidecar)
           (@detach memory_only (started 31600 sidecar)).1).
  - reflexivity.
  - vm_compute. reflexivity.
  - left. reflexivity.
  - reflexivity.
Defined.

(** Unloading the plugin. *)
Lemma unload_leaves_cleared_connected_witness :
  exists g1 w1,
    @unload memory_only installed (@init memory_only (host town 31600 sidecar)).1
      = (g1, w1, Returned) /\
    project_connections w1 = [(cleared, slot_on_cleared)] /\
    layer_connections w1 = [] /\
    ("memory_layer_saver_menu" ∉ pluginMenu g1) /\
    ask_to_save_memory_layers g1 = true /\
    trace w1 = [Log "MemoryLayerSaver unloaded"] /\
    @host_read_project memory_only reader_ok writer_ok archive_dir w1 = (w1, []) /\
    @host_write_project memory_only reader_ok writer_ok archive_dir w1 = (w1, []).
Proof.
  apply (@unload_leaves_cleared_connected memory_only reader_ok writer_ok archive_dir
           installed "memory_layer_saver_menu" (host town 31600 sidecar));
    reflexivity.
Defined.

(** Saving after an edit: the writer runs once and the state is Clean. *)
Lemma save_dirty_invokes_writer_witness :
  let save := @save_data memory_only writer_ok archive_dir in
  let w := edited 31600 sidecar in
  writes (save w).1 = S (writes w) /\
  (save w).2 = Returned /\
  has_modified_layers (save w).1 = false.
Proof.
  cbv zeta.
  destruct (@save_dirty_invokes_writer memory_only writer_ok archive_dir
              (edited 31600 sidecar)) as (_ & Hw & _ & Hr & Hf).
  - reflexivity.
  - vm_compute. discriminate.
  - split; [exact Hw|]. split; [exact Hr | exact Hf].
Defined.

(** Edit, save, save on the open project. *)
Lemma edit_save_save_witness :
  let save := @save_data memory_only writer_ok archive_dir in
  let w1 := (@emit_layer memory_only reader_ok writer_ok archive_dir "mem_points"
               committedAttributeValuesChanges (opened 31600 sidecar)).1 in
  (save w1).2 = Returned /\
  writes (save w1).1 = S (writes (opened 31600 sidecar)) /\
  has_modified_layers (save w1).1 = false /\
  save (save w1).1 = ((save w1).1, Returned).
Proof.
  cbv zeta.
  apply (@edit_save_save memory_only reader_ok writer_ok archive_dir points
           committedAttributeValuesChanges (opened 31600 sidecar)).
  - vm_compute. set_solver.
  - left. reflexivity.
  - reflexivity.
  - reflexivity.
Defined.

(** The first save on a host with attachments goes to the new attachment. *)
Lemma save_target_is_attachment_witness :
  @save_target archive_dir (edited 32200 sidecar) = "/tmp/qgis_archive/a1b2c3_layers.mldata".
Proof.
  apply (proj2 (@save_target_is_attachment archive_dir (edited 32200 sidecar)
                  ltac:(discriminate) ltac:(vm_compute; discriminate) eq_refl)).
Defined.

(** A truncated archive is reported with the text of the exception. *)
Lemma load_reports_reader_error_witness :
  trace (@load_data memory_only reader_corrupt (started 31600 sidecar)).1 =
    [ Log "Loading memory layers from /home/u/town.qgs.mldata";
      ReadLayers "/home/u/town.qgs.mldata" [points];
      MessageBox "Error reloading memory layers" "unpack requires a buffer of 4 bytes" ].
Proof.
  apply (proj1 (@load_reports_reader_error memory_only reader_corrupt
                  (started 31600 sidecar))).
  - vm_compute. reflexivity.
  - vm_compute. discriminate.
  - reflexivity.
Defined.
